(** * The code editor example: file selection, loading, editing and saving

    A shallow embedding of [examples/code_editor.py] (class [CodeEditor]) and
    the properties of its load / save lifecycle.

    The handlers of the application mutate the attributes of [self], read and
    write files, and post notifications.  They are embedded as computations in
    a state-and-exception monad over a [State] record that holds the
    attributes of the application together with the part of the world the
    handlers act on (the disk and the notifications shown so far). *)

From Stdlib Require Import Ascii.
From stdpp Require Import base option list strings gmap.

Local Open Scope string_scope.

(** ** [pathlib.Path] *)

(** A (POSIX) path: whether it is anchored at the root, and its components. *)
Record Path := mkPath { anchored : bool; parts : list string }.

Global Instance Path_eq_dec : EqDecision Path.
Proof. solve_decision. Defined.

Global Instance Path_countable : Countable Path.
Proof.
  refine (inj_countable' (fun p => (anchored p, parts p))
                         (fun q => mkPath q.1 q.2) _).
  by intros [].
Defined.

(** [str(path)]: the components joined by ["/"]; the empty relative path
    prints as ["."]. *)
Definition str (p : Path) : string :=
  match anchored p, parts p with
  | false, [] => "."
  | a, ps => (if a then "/" else "") +:+ String.concat "/" ps
  end.

(** [path.name]: the final component, [""] when there is none. *)
Definition name (p : Path) : string := List.last (parts p) "".

(** [str(x)] for an [Optional[Path]]: [str(None)] is ["None"]. *)
Definition str_opt (o : option Path) : string :=
  match o with
  | Some p => str p
  | None => "None"
  end.

(** ** Exceptions *)

(** The exceptions the handlers can meet.  Each of them is a subclass of
    Python's [Exception], so [except Exception] catches every one. *)
Inductive exn :=
| FileNotFoundError
| IsADirectoryError
| PermissionError
| UnicodeDecodeError
| UnicodeEncodeError
| OSError
| AttributeError
| TypeError.

Global Instance exn_eq_dec : EqDecision exn.
Proof. solve_decision. Defined.

Inductive outcome (A : Type) :=
| Return (a : A)
| Raise (e : exn).
Arguments Return {A} a.
Arguments Raise {A} e.

(** Whether an outcome is a value rather than an exception. *)
Definition succeeds {A} (o : outcome A) : bool :=
  match o with
  | Return _ => true
  | Raise _ => false
  end.

(** ** The file system *)

(** What a path of the disk holds: a directory, or a regular file with its
    read and write permissions and its content.  The content is [Some t]
    when the bytes of the file decode to the text [t], and [None] when they
    do not decode. *)
Inductive inode :=
| Dir
| File (readable writable : bool) (content : option string).

Global Instance inode_eq_dec : EqDecision inode.
Proof. solve_decision. Defined.

Abbreviation Disk := (gmap Path inode).

(** [Path.read_text()] on a disk. *)
Definition fs_read_text (d : Disk) (p : Path) : outcome string :=
  match d !! p with
  | None => Raise FileNotFoundError
  | Some Dir => Raise IsADirectoryError
  | Some (File false _ _) => Raise PermissionError
  | Some (File true _ None) => Raise UnicodeDecodeError
  | Some (File true _ (Some t)) => Return t
  end.

(** What can go wrong with a write once the file is open: the text does not
    encode, and nothing reaches the file; or the device gives up (it is
    full, say) after the first [n] characters reached the file. *)
Inductive fault :=
| EncodeFailed
| DeviceFailed (n : nat).

(** The device under the disk: whether the write of a text to an open file
    goes through, and the fault when it does not. *)
Definition Device : Type := Disk -> Path -> string -> option fault.

(** [Path.write_text(data)] on a disk, with the disk it leaves behind also
    when it raises.  A directory and a file that may not be written refuse
    the open, and the disk is as it was.  Otherwise the file is opened with
    mode ['w'], which empties it (a path that holds nothing gets a new file,
    its directory is taken to exist), and then receives [data]; a fault
    after the open raises and leaves the file with what reached it. *)
Definition fs_write_text (dev : Device) (d : Disk) (p : Path) (data : string)
    : outcome unit * Disk :=
  let opened (r : bool) : outcome unit * Disk :=
    match dev d p data with
    | None => (Return tt, <[p := File r true (Some data)]> d)
    | Some EncodeFailed =>
        (Raise UnicodeEncodeError, <[p := File r true (Some "")]> d)
    | Some (DeviceFailed n) =>
        (Raise OSError,
         <[p := File r true (Some (String.substring 0 n data))]> d)
    end in
  match d !! p with
  | None => opened true
  | Some Dir => (Raise IsADirectoryError, d)
  | Some (File _ false _) => (Raise PermissionError, d)
  | Some (File r true _) => opened r
  end.

Arguments fs_read_text : simpl never.
Arguments fs_write_text : simpl never.

(** ** The document of the text area *)

(** The text area keeps its text in a document
    ([textual/document/_document.py], which is not among the files of the
    example): the text split into lines, and the newline they are joined
    with.  A character of a [string] stands for one code point; the strings
    range over the code points below 256, so the two line boundaries above
    that range (U+2028 and U+2029) have no character here. *)

Definition LF : ascii := "010"%char.
Definition CR : ascii := "013"%char.

(** The line boundaries of [str.splitlines]: line feed, carriage return,
    vertical tab, form feed, the file, group and record separators, and
    next line. *)
Definition line_boundaries : list ascii :=
  [LF; CR; "011"; "012"; "028"; "029"; "030"; "133"]%char.

Definition is_line_boundary (c : ascii) : bool :=
  bool_decide (c ∈ line_boundaries).

(** [str.splitlines()]: the lines of a text without their boundaries; a
    carriage return followed by a line feed is one boundary, and a boundary
    at the very end opens no further line. *)
Fixpoint splitlines (s : string) : list string :=
  match s with
  | EmptyString => []
  | String c s' =>
      if is_line_boundary c then
        "" :: (if bool_decide (c = CR) then
                 match s' with
                 | String c' s'' =>
                     if bool_decide (c' = LF) then splitlines s''
                     else splitlines s'
                 | EmptyString => splitlines s'
                 end
               else splitlines s')
      else
        match splitlines s' with
        | [] => [String c ""]
        | l :: ls => String c l :: ls
        end
  end.

(** ["\r\n" in text] and [c in text]. *)
Fixpoint contains_crlf (s : string) : bool :=
  match s with
  | EmptyString => false
  | String c s' =>
      match s' with
      | String c' _ =>
          (bool_decide (c = CR) && bool_decide (c' = LF)) || contains_crlf s'
      | EmptyString => false
      end
  end.

Fixpoint contains_char (c : ascii) (s : string) : bool :=
  match s with
  | EmptyString => false
  | String c' s' => bool_decide (c' = c) || contains_char c s'
  end.

(** [_detect_newline_style(text)] *)
Definition detect_newline_style (text : string) : string :=
  if contains_crlf text then String CR (String LF "")
  else if contains_char LF text then String LF ""
  else if contains_char CR text then String CR ""
  else String LF "".

(** [text.endswith(("\r\n", "\n", "\r"))] *)
Fixpoint ends_with_newline (s : string) : bool :=
  match s with
  | EmptyString => false
  | String c EmptyString => bool_decide (c = LF) || bool_decide (c = CR)
  | String _ s' => ends_with_newline s'
  end.

(** The lines [Document.__init__(text)] keeps: those of [splitlines], and
    one more, empty, when the text ends with a newline or is empty. *)
Definition document_lines (text : string) : list string :=
  (splitlines text ++
   if ends_with_newline text || bool_decide (text = "") then [""] else [])%list.

(** [Document(text).text]: the lines joined with the newline of the text. *)
Definition document_text (text : string) : string :=
  String.concat (detect_newline_style text) (document_lines text).

(** A text whose only line boundaries are line feeds. *)
Fixpoint only_newline_breaks (s : string) : bool :=
  match s with
  | EmptyString => true
  | String c s' =>
      (bool_decide (c = LF) || negb (is_line_boundary c))
      && only_newline_breaks s'
  end.

Arguments document_text : simpl never.

(** ** The widgets and the state of the application *)

(** The [TextArea] widget of [textual.widgets], which is not among the files
    of the example: what the example uses of it.  Its text is the text of
    its document; its language attribute is an identifier or none; its
    [display] says whether it is visible. *)
Record TextArea := mkTextArea {
  display : bool;
  language : option string;
  text : string
}.

(** A notification as [App.notify] posts it. *)
Record Notification := mkNotification {
  message : string;
  title : string;
  severity : string
}.

(** The attributes of the application, and the world around it: the disk,
    the notifications posted so far (the latest last), and a log of the
    writes that went through, each with its path and the text written. *)
Record State := mkState {
  (* attributes of the application *)
  file_path : Path;
  sub_title : string;
  text_area : TextArea;
  selected_file : option Path;
  file_content : option string;
  show_tree : bool;
  classes : gset string;
  (* the world *)
  disk : Disk;
  notifications : list Notification;
  written : list (Path * string)
}.

(** ** The monad of the handlers *)

Definition M (A : Type) : Type := State -> outcome A * State.

Global Instance M_ret : MRet M := fun A a st => (Return a, st).

Global Instance M_bind : MBind M := fun A B f m st =>
  match m st with
  | (Return a, st') => f a st'
  | (Raise e, st') => (Raise e, st')
  end.

Definition raise {A} (e : exn) : M A := fun st => (Raise e, st).

Definition gets {A} (f : State -> A) : M A := fun st => (Return (f st), st).

Definition modify (f : State -> State) : M unit := fun st => (Return tt, f st).

(** [try: body  except Exception: handler  else: orelse].  The handler runs
    when the body raises; the [else] suite runs when it does not, and what
    the [else] suite raises is not caught. *)
Definition try_except_else {A B} (body : M A) (handler : exn -> M B)
    (orelse : A -> M B) : M B := fun st =>
  match body st with
  | (Return a, st') => orelse a st'
  | (Raise e, st') => handler e st'
  end.

(** The state a computation ends in, and whether it returned. *)
Definition exec {A} (m : M A) (st : State) : State := (m st).2.

Definition returns {A} (m : M A) (st : State) : bool := succeeds (m st).1.

(** Using an attribute of an [Optional] value that is [None] raises
    [AttributeError]. *)
Definition deref {A} (o : option A) : M A :=
  match o with
  | Some a => mret a
  | None => raise AttributeError
  end.

(** *** Assignments to the attributes *)

Definition set_sub_title (s : string) : M unit := modify (fun st =>
  mkState (file_path st) s (text_area st) (selected_file st) (file_content st)
          (show_tree st) (classes st) (disk st) (notifications st) (written st)).

Definition set_text_area (t : TextArea) : M unit := modify (fun st =>
  mkState (file_path st) (sub_title st) t (selected_file st) (file_content st)
          (show_tree st) (classes st) (disk st) (notifications st) (written st)).

Definition set_selected_file (f : option Path) : M unit := modify (fun st =>
  mkState (file_path st) (sub_title st) (text_area st) f (file_content st)
          (show_tree st) (classes st) (disk st) (notifications st) (written st)).

Definition set_file_content (c : option string) : M unit := modify (fun st =>
  mkState (file_path st) (sub_title st) (text_area st) (selected_file st) c
          (show_tree st) (classes st) (disk st) (notifications st) (written st)).

Definition set_show_tree (b : bool) : M unit := modify (fun st =>
  mkState (file_path st) (sub_title st) (text_area st) (selected_file st)
          (file_content st) b (classes st) (disk st) (notifications st)
          (written st)).

Definition set_classes (c : gset string) : M unit := modify (fun st =>
  mkState (file_path st) (sub_title st) (text_area st) (selected_file st)
          (file_content st) (show_tree st) c (disk st) (notifications st)
          (written st)).

(** [self.text_area.display = b] *)
Definition set_display (b : bool) : M unit :=
  ta ← gets text_area;
  set_text_area (mkTextArea b (language ta) (text ta)).

(** [self.text_area.language = l] *)
Definition set_language (l : option string) : M unit :=
  ta ← gets text_area;
  set_text_area (mkTextArea (display ta) l (text ta)).

(** [self.text_area.load_text(t)]: the text area gets a new document made
    of the text, and its text is from then on the text of that document.  A
    [None] where a text is expected makes the document raise [TypeError]. *)
Definition load_text (t : option string) : M unit :=
  match t with
  | Some s =>
      ta ← gets text_area;
      set_text_area (mkTextArea (display ta) (language ta) (document_text s))
  | None => raise TypeError
  end.

(** *** The world *)

(** [self.notify(message=..., title=..., severity=...)] *)
Definition notify (msg ttl sev : string) : M unit := modify (fun st =>
  mkState (file_path st) (sub_title st) (text_area st) (selected_file st)
          (file_content st) (show_tree st) (classes st) (disk st)
          (notifications st ++ [mkNotification msg ttl sev]) (written st)).

(** [path.read_text()] *)
Definition read_text (p : Path) : M string := fun st =>
  (fs_read_text (disk st) p, st).

(** [path.write_text(data)] on the device [dev]; the disk is the one the
    write leaves behind, and a write that went through is logged in
    [written]. *)
Definition write_text (dev : Device) (p : Path) (data : string) : M unit :=
  fun st =>
  let (o, d) := fs_write_text dev (disk st) p data in
  (o,
   mkState (file_path st) (sub_title st) (text_area st) (selected_file st)
           (file_content st) (show_tree st) (classes st) d
           (notifications st)
           (if succeeds o then written st ++ [(p, data)] else written st)).

(** The text a path of the disk holds, when it holds a file that decodes. *)
Definition disk_text (d : Disk) (p : Path) : option string :=
  match d !! p with
  | Some (File _ _ c) => c
  | _ => None
  end.

(** [CodeEditor.__init__(path)], on a given disk. *)
Definition init (path : Path) (d : Disk) : State :=
  {| file_path := path;
     sub_title := str path;
     text_area := {| display := false; language := None; text := "" |};
     selected_file := None;
     file_content := None;
     show_tree := true;
     classes := ∅;
     disk := d;
     notifications := [];
     written := [] |}.

(** ** A small world to run the handlers in *)

Module Sample.

Definition src : Path := mkPath true ["src"].
Definition main_py : Path := mkPath true ["src"; "main.py"].
Definition logo_png : Path := mkPath true ["src"; "logo.png"].
Definition hosts : Path := mkPath true ["etc"; "hosts"].
Definition notes_txt : Path := mkPath true ["src"; "notes.txt"].

(** Two lines with a form feed between them, and with a line feed. *)
Definition notes : string := "a = 1" +:+ String "012" "b = 2".
Definition notes_joined : string := "a = 1" +:+ String LF "b = 2".

(** A directory, a script, an image whose bytes are no text, a file that
    may be read but not written, and the notes with their form feed. *)
Definition disk0 : Disk :=
  <[src := Dir]>
  (<[main_py := File true true (Some "print(1)")]>
  (<[logo_png := File true true None]>
  (<[hosts := File true false (Some "127.0.0.1 localhost")]>
  (<[notes_txt := File true true (Some notes)]> ∅)))).

(** A device with room for thirty-two characters in a file. *)
Definition device : Device := fun _ _ data =>
  if decide (32 < String.length data) then Some (DeviceFailed 32) else None.

Definition has_suffix (suffix s : string) : bool :=
  bool_decide
    (String.substring (String.length s - String.length suffix)
                      (String.length suffix) s = suffix).

(** A guesser that goes by the extension of the file name. *)
Definition guess (path : string) (code : option string) : string :=
  if has_suffix ".py" path then "python"
  else if has_suffix ".png" path then "png"
  else "default".

Definition languages : list string := ["python"; "json"; "markdown"].

(** The application started on [src]. *)
Definition fresh : State := init src disk0.

(** The application with the file [f] open: [content] was loaded from it,
    the buffer shows [buffer] with the language [lang]. *)
Definition opened (f : Path) (content : string) (lang : option string)
    (buffer : string) : State :=
  {| file_path := src;
     sub_title := str f;
     text_area := {| display := true; language := lang; text := buffer |};
     selected_file := Some f;
     file_content := Some content;
     show_tree := true;
     classes := ∅;
     disk := disk0;
     notifications := [];
     written := [] |}.

(** The script, open and untouched; open and edited. *)
Definition main_py_open : State :=
  opened main_py "print(1)" (Some "python") "print(1)".

Definition main_py_edited : State :=
  opened main_py "print(1)" (Some "python") "print(2)".

(** The read-only file, open and edited. *)
Definition hosts_edited : State :=
  opened hosts "127.0.0.1 localhost" None "127.0.0.1 db".

(** The script, open, with an edit that is too long for the device. *)
Definition main_py_long : State :=
  opened main_py "print(1)" (Some "python")
         "print('a line of more than thirty-two characters')".

End Sample.

(** Unfolds the monad's operations in the goal and computes. *)
Ltac run_M :=
  repeat (progress (unfold mbind, M_bind, mret, M_ret, raise, gets, modify,
                    deref, set_sub_title, set_text_area, set_selected_file,
                    set_file_content, set_show_tree, set_classes, set_display,
                    set_language, load_text, notify, exec, returns, succeeds;
                    cbn)).

(** ** The application *)

Section CodeEditor.

(** [rich.syntax.Syntax.guess_lexer(path, code)], the language guesser of the
    syntax highlighting library: a lexer name for a file name and its
    (optional) content. *)
Variable guess_lexer : string -> option string -> string.

(** [textual.widgets.text_area.BUILTIN_LANGUAGES], the languages the text
    area knows. *)
Variable BUILTIN_LANGUAGES : list string.

(** The device the files are written to. *)
Variable device : Device.

(** [CodeEditor.load_text_area(text, file_path)] *)
Definition load_text_area (text : option string) (file_path : option Path)
    : M unit :=
  let lexer := guess_lexer (str_opt file_path) text in
  c ← gets file_content;
  load_text c;;
  if decide (lexer ∈ BUILTIN_LANGUAGES)
  then set_language (Some lexer)
  else set_language None.

(** [CodeEditor.on_directory_tree_file_selected(event)], for an event that
    carries [path].  ([event.stop()] only keeps the event from bubbling.) *)
Definition on_directory_tree_file_selected (path : Path) : M unit :=
  set_selected_file (Some path);;
  f ← gets selected_file;
  set_sub_title (str_opt f);;
  try_except_else
    (f ← gets selected_file ≫= deref;
     content ← read_text f;
     set_file_content (Some content);;
     set_display true)
    (fun _ =>
     set_sub_title "ERROR";;
     set_display false;;
     set_language None;;
     f ← gets selected_file ≫= deref;
     notify (name f +:+ " could not be loaded") "File Error" "error";;
     set_selected_file None)
    (fun _ =>
     c ← gets file_content;
     f ← gets selected_file;
     load_text_area c f).

(** [Widget.set_class(add, class_name)] *)
Definition set_class (add : bool) (class_name : string) : M unit :=
  cs ← gets classes;
  set_classes (if add then cs ∪ {[class_name]} else cs ∖ {[class_name]}).

(** [CodeEditor.watch_show_tree(show_tree)] *)
Definition watch_show_tree (show_tree : bool) : M unit :=
  set_class show_tree "-show-tree".

(** [CodeEditor.action_toggle_files()]; assigning the reactive attribute
    runs its watcher with the new value. *)
Definition action_toggle_files : M unit :=
  b ← gets show_tree;
  set_show_tree (negb b);;
  b' ← gets show_tree;
  watch_show_tree b'.

(** [CodeEditor.action_save()].  A path is always truthy, so
    [if self.selected_file] asks whether the attribute is not [None]. *)
Definition action_save : M unit :=
  sel ← gets selected_file;
  if bool_decide (is_Some sel) then
    t ← gets (text ∘ text_area);
    c ← gets file_content;
    if bool_decide (Some t ≠ c) then
      f ← gets selected_file ≫= deref;
      t ← gets (text ∘ text_area);
      write_text device f t;;
      t ← gets (text ∘ text_area);
      set_file_content (Some t);;
      f ← gets selected_file;
      notify (str_opt f) "File Saved" "information"
    else mret tt
  else mret tt.

(** Modelled from the spec: the user's editing of the live buffer, which
    the widget does on its own; the buffer then holds [t]. *)
Definition edit (t : string) : M unit :=
  ta ← gets text_area;
  set_text_area (mkTextArea (display ta) (language ta) t).

(** The language the text area gets for a file and its text. *)
Definition detected_language (path : Path) (content : string)
    : option string :=
  let lexer := guess_lexer (str path) (Some content) in
  if decide (lexer ∈ BUILTIN_LANGUAGES) then Some lexer else None.

(** The events the application reacts to: a file selected in the tree, the
    user's editing of the buffer, and the key bindings for saving and for
    toggling the tree. *)
Inductive operation :=
| HandleSelection (path : Path)
| EditBuffer (t : string)
| SaveFile
| ToggleTree.

Definition perform (op : operation) : M unit :=
  match op with
  | HandleSelection path => on_directory_tree_file_selected path
  | EditBuffer t => edit t
  | SaveFile => action_save
  | ToggleTree => action_toggle_files
  end.

(** The events are handled one after the other; an exception that leaves a
    handler ends the run. *)
Fixpoint perform_all (ops : list operation) : M unit :=
  match ops with
  | [] => mret tt
  | op :: ops => perform op;; perform_all ops
  end.

(** The baseline of the specification's data model: while a file is
    selected, the loaded content is the text the disk holds for it. *)
Definition baseline_on_disk (st : State) : Prop :=
  forall f, selected_file st = Some f ->
  exists c, file_content st = Some c /\ disk_text (disk st) f = Some c.

(** What the header and the buffer show of the selection: with a file
    selected the buffer is visible and the subtitle is the path of the file;
    with none the buffer is hidden and the subtitle is the error marker or
    still the path the application was started on. *)
Definition view_follows_selection (st : State) : Prop :=
  match selected_file st with
  | Some f => display (text_area st) = true /\ sub_title st = str f
  | None =>
      display (text_area st) = false /\
      (sub_title st = "ERROR" \/ sub_title st = str (file_path st))
  end.

(** The language of the text area is none or one the text area knows. *)
Definition language_supported (st : State) : Prop :=
  forall l, language (text_area st) = Some l -> l ∈ BUILTIN_LANGUAGES.

(** The two notifications the handlers post. *)
Definition error_note (f : Path) : Notification :=
  {| message := name f +:+ " could not be loaded";
     title := "File Error";
     severity := "error" |}.

Definition saved_note (f : Path) : Notification :=
  {| message := str f; title := "File Saved"; severity := "information" |}.

(** *** Two statements of the specification, as it words them *)

(** "Buffer content == file's text": selecting [path], whose read gives a
    text, leaves that very text in the buffer. *)
Definition buffer_is_file_text (st : State) (path : Path) : Prop :=
  forall content, fs_read_text (disk st) path = Return content ->
  text (text_area (exec (on_directory_tree_file_selected path) st)) = content.

(** "Both cleared on a failed load": selecting [path], whose read fails,
    leaves neither a selected file nor a loaded content. *)
Definition failed_load_clears_both (st : State) (path : Path) : Prop :=
  forall e, fs_read_text (disk st) path = Raise e ->
  let st' := exec (on_directory_tree_file_selected path) st in
  selected_file st' = None /\ file_content st' = None.

(** "If different: write the full buffer text to SelectedFile, update
    LoadedContent, emit a File Saved notification", for every state with
    [f] selected and a buffer that differs from the loaded content. *)
Definition save_writes_buffer (st : State) (f : Path) : Prop :=
  selected_file st = Some f ->
  file_content st <> Some (text (text_area st)) ->
  exists st',
    action_save st = (Return tt, st') /\
    disk_text (disk st') f = Some (text (text_area st)) /\
    file_content st' = Some (text (text_area st)) /\
    selected_file st' = Some f /\
    notifications st' =
      (notifications st ++
       [ {| message := str f; title := "File Saved";
            severity := "information" |} ])%list.

(** *** What the handlers compute *)

Lemma selected_loaded st path content :
  fs_read_text (disk st) path = Return content ->
  on_directory_tree_file_selected path st =
    (Return tt,
     {| file_path := file_path st;
        sub_title := str path;
        text_area := {| display := true;
                        language := detected_language path content;
                        text := document_text content |};
        selected_file := Some path;
        file_content := Some content;
        show_tree := show_tree st;
        classes := classes st;
        disk := disk st;
        notifications := notifications st;
        written := written st |}).
Proof.
  intros Hread.
  unfold on_directory_tree_file_selected, try_except_else, read_text.
  run_M. rewrite Hread. run_M.
  unfold load_text_area, detected_language. run_M.
  destruct (decide _); reflexivity.
Qed.

Lemma selected_failed st path e :
  fs_read_text (disk st) path = Raise e ->
  on_directory_tree_file_selected path st =
    (Return tt,
     {| file_path := file_path st;
        sub_title := "ERROR";
        text_area := {| display := false;
                        language := None;
                        text := text (text_area st) |};
        selected_file := None;
        file_content := file_content st;
        show_tree := show_tree st;
        classes := classes st;
        disk := disk st;
        notifications :=
          notifications st ++
          [ {| message := name path +:+ " could not be loaded";
               title := "File Error";
               severity := "error" |} ];
        written := written st |}).
Proof.
  intros Hread.
  unfold on_directory_tree_file_selected, try_except_else, read_text.
  run_M. rewrite Hread. reflexivity.
Qed.

Lemma save_nothing_selected st :
  selected_file st = None -> action_save st = (Return tt, st).
Proof.
  intros Hsel. unfold action_save. run_M. rewrite Hsel.
  rewrite bool_decide_eq_false_2; [reflexivity | by apply is_Some_None].
Qed.

Lemma save_unmodified st :
  file_content st = Some (text (text_area st)) ->
  action_save st = (Return tt, st).
Proof.
  intros Hsame. unfold action_save. run_M.
  case_bool_decide; [| reflexivity].
  rewrite bool_decide_eq_false_2; [reflexivity |].
  intros Hne. by apply Hne.
Qed.

Lemma save_modified st f d :
  selected_file st = Some f ->
  file_content st <> Some (text (text_area st)) ->
  fs_write_text device (disk st) f (text (text_area st)) = (Return tt, d) ->
  action_save st =
    (Return tt,
     {| file_path := file_path st;
        sub_title := sub_title st;
        text_area := text_area st;
        selected_file := Some f;
        file_content := Some (text (text_area st));
        show_tree := show_tree st;
        classes := classes st;
        disk := d;
        notifications :=
          notifications st ++
          [ {| message := str f;
               title := "File Saved";
               severity := "information" |} ];
        written := written st ++ [(f, text (text_area st))] |}).
Proof.
  intros Hsel Hmod Hwrite. unfold action_save, write_text. run_M.
  rewrite Hsel. rewrite bool_decide_eq_true_2 by eauto.
  rewrite bool_decide_eq_true_2 by congruence.
  run_M. rewrite Hsel, Hwrite. cbn. rewrite Hsel. reflexivity.
Qed.

(** A write that fails leaves [action_save] as its exception; of the state
    only the disk may have changed. *)
Lemma save_write_failed st f e d :
  selected_file st = Some f ->
  file_content st <> Some (text (text_area st)) ->
  fs_write_text device (disk st) f (text (text_area st)) = (Raise e, d) ->
  action_save st =
    (Raise e,
     {| file_path := file_path st;
        sub_title := sub_title st;
        text_area := text_area st;
        selected_file := Some f;
        file_content := file_content st;
        show_tree := show_tree st;
        classes := classes st;
        disk := d;
        notifications := notifications st;
        written := written st |}).
Proof.
  intros Hsel Hmod Hwrite. unfold action_save, write_text. run_M.
  rewrite Hsel. rewrite bool_decide_eq_true_2 by eauto.
  rewrite bool_decide_eq_true_2 by congruence.
  run_M. rewrite Hsel, Hwrite. cbn. rewrite Hsel. reflexivity.
Qed.

(** *** The disk under a write *)

(** A write touches the disk at its path only; when it returns, the path
    holds the text. *)
Lemma fs_write_text_spec dev d p data o d' :
  fs_write_text dev d p data = (o, d') ->
  (forall q, q <> p -> d' !! q = d !! q) /\
  (o = Return tt -> disk_text d' p = Some data).
Proof.
  unfold fs_write_text, disk_text.
  destruct (d !! p) as [[|r [] c]|] eqn:Hp;
    destruct (dev d p data) as [[|n]|]; intros Hw; simplify_eq;
    (split; [intros q Hq; by rewrite ?lookup_insert_ne
            | intros Ho; by rewrite ?lookup_insert_eq]).
Qed.

(** The exceptions of a write. *)
Lemma fs_write_text_raises dev d p data e d' :
  fs_write_text dev d p data = (Raise e, d') ->
  e = IsADirectoryError \/ e = PermissionError \/
  e = UnicodeEncodeError \/ e = OSError.
Proof.
  unfold fs_write_text.
  destruct (d !! p) as [[|r [] c]|];
    destruct (dev d p data) as [[|n]|]; intros Hw; simplify_eq; auto.
Qed.

(** A read returns the text the disk holds. *)
Lemma fs_read_text_disk_text d p t :
  fs_read_text d p = Return t -> disk_text d p = Some t.
Proof.
  unfold fs_read_text, disk_text.
  destruct (d !! p) as [[|[] w [c|]]|]; congruence.
Qed.

(** *** The document of a text *)

Lemma not_line_boundary c :
  is_line_boundary c = false -> c <> LF /\ c <> CR.
Proof.
  unfold is_line_boundary, line_boundaries. intros Hc.
  apply bool_decide_eq_false in Hc.
  apply not_elem_of_cons in Hc as [HLF Hc].
  by apply not_elem_of_cons in Hc as [HCR _].
Qed.

Lemma splitlines_nonempty c s : splitlines (String c s) <> [].
Proof.
  cbn [splitlines]. destruct (is_line_boundary c); [done |].
  by destruct (splitlines s).
Qed.

Lemma document_lines_nonempty s : document_lines s <> [].
Proof.
  unfold document_lines. destruct s as [|c s]; [done |].
  pose proof (splitlines_nonempty c s).
  by destruct (splitlines (String c s)).
Qed.

(** A text without carriage returns is joined with line feeds. *)
Lemma detect_newline_style_plain s :
  only_newline_breaks s = true -> detect_newline_style s = String LF "".
Proof.
  intros Hs.
  assert (Hcr : contains_char CR s = false /\ contains_crlf s = false).
  { induction s as [|c s IH]; [done |].
    cbn [only_newline_breaks] in Hs. apply andb_true_iff in Hs as [Hc Hs].
    destruct (IH Hs) as [IH1 IH2].
    assert (Hne : c <> CR).
    { apply orb_true_iff in Hc as [Hc|Hc].
      - apply bool_decide_eq_true in Hc. by subst.
      - apply negb_true_iff in Hc.
        by apply not_line_boundary in Hc as [_ Hc]. }
    cbn [contains_char contains_crlf].
    rewrite (bool_decide_eq_false_2 _ Hne), IH1.
    split; [done |]. by destruct s. }
  destruct Hcr as [Hcr Hcrlf]. unfold detect_newline_style.
  rewrite Hcrlf, Hcr. by destruct (contains_char LF s).
Qed.

Lemma concat_cons_char sep c l ls :
  String.concat sep (String c l :: ls) = String c (String.concat sep (l :: ls)).
Proof. by destruct ls. Qed.

(** The lines of a text whose only boundaries are line feeds, joined with
    line feeds, are the text. *)
Lemma concat_document_lines_plain s :
  only_newline_breaks s = true ->
  String.concat (String LF "") (document_lines s) = s.
Proof.
  induction s as [|c s IH]; [done |].
  cbn [only_newline_breaks]. intros Hs.
  apply andb_true_iff in Hs as [Hc Hs]. specialize (IH Hs).
  pose proof (document_lines_nonempty s) as Hne.
  apply orb_true_iff in Hc as [Hc|Hc].
  - apply bool_decide_eq_true in Hc. subst c.
    assert (Hlines : document_lines (String LF s) = "" :: document_lines s).
    { unfold document_lines. by destruct s. }
    rewrite Hlines. destruct (document_lines s) as [|l ls]; [done |].
    change (String.concat (String LF "") ("" :: l :: ls))
      with (String LF (String.concat (String LF "") (l :: ls))).
    by rewrite IH.
  - apply negb_true_iff in Hc.
    destruct (not_line_boundary c Hc) as [HLF HCR].
    assert (Hlines : match document_lines s with
                     | [] => False
                     | l :: ls => document_lines (String c s) = String c l :: ls
                     end).
    { unfold document_lines. cbn [splitlines ends_with_newline].
      rewrite Hc. destruct s as [|c' s].
      - cbn. rewrite (bool_decide_eq_true_2 ("" = "")) by done.
        rewrite (bool_decide_eq_false_2 _ HLF), (bool_decide_eq_false_2 _ HCR).
        by rewrite bool_decide_eq_false_2.
      - pose proof (splitlines_nonempty c' s).
        destruct (splitlines (String c' s)) as [|l ls]; [done |].
        by cbn. }
    destruct (document_lines s) as [|l ls]; [done |].
    by rewrite Hlines, concat_cons_char, IH.
Qed.

(** The document of such a text holds the text itself. *)
Lemma document_text_plain s :
  only_newline_breaks s = true -> document_text s = s.
Proof.
  intros Hs. unfold document_text.
  rewrite (detect_newline_style_plain s Hs).
  by apply concat_document_lines_plain.
Qed.

(** *** One event *)

(** The cases of one event: a selection that loads or fails, an edit, a
    save that has nothing to write, writes or fails, and a toggle. *)
Ltac perform_cases op st :=
  destruct op as [path|t| |]; cbn [perform]; unfold exec, returns;
  [ destruct (fs_read_text (disk st) path) as [c|e] eqn:Hread;
    [ rewrite (selected_loaded st path c Hread)
    | rewrite (selected_failed st path e Hread) ]
  | idtac
  | destruct (selected_file st) as [f|] eqn:Hsel;
    [ destruct (decide (file_content st = Some (text (text_area st))))
        as [Hsame|Hmod];
      [ rewrite (save_unmodified st Hsame)
      | destruct (fs_write_text device (disk st) f (text (text_area st)))
          as [[[]|e] d] eqn:Hwrite;
        [ rewrite (save_modified st f d Hsel Hmod Hwrite)
        | rewrite (save_write_failed st f e d Hsel Hmod Hwrite) ] ]
    | rewrite (save_nothing_selected st Hsel) ]
  | idtac ];
  cbn.

(** An event leaves the disk and the log of writes alone, unless it is a
    save of a modified buffer: that one leaves the disk alone away from the
    selected file, and logs the write when it went through, the file then
    holding the buffer text. *)
Lemma perform_frame op st :
  let st' := exec (perform op) st in
  (disk st' = disk st /\ written st' = written st) \/
  (op = SaveFile /\
   exists f,
     selected_file st = Some f /\
     file_content st <> Some (text (text_area st)) /\
     (forall q, q <> f -> disk st' !! q = disk st !! q) /\
     (written st' = written st \/
      written st' = (written st ++ [(f, text (text_area st))])%list /\
      disk_text (disk st') f = Some (text (text_area st)))).
Proof.
  cbn zeta. perform_cases op st; try (by left).
  - right. split; [done |]. exists f.
    destruct (fs_write_text_spec _ _ _ _ _ _ Hwrite) as [Hother Htext].
    split; [done |]. split; [done |]. split; [done |]. right. auto.
  - right. split; [done |]. exists f.
    destruct (fs_write_text_spec _ _ _ _ _ _ Hwrite) as [Hother _].
    split; [done |]. split; [done |]. split; [done |]. by left.
Qed.

(** Only a selection changes which file is selected. *)
Lemma perform_selected op st p :
  selected_file (exec (perform op) st) = Some p ->
  selected_file st = Some p \/ op = HandleSelection p.
Proof.
  perform_cases op st; try rewrite ?Hsel; try (intros Hp; by left).
  intros [= ->]. by right.
Qed.

(** *** A run of events *)

Lemma perform_all_cons op ops st :
  exec (perform_all (op :: ops)) st =
    if returns (perform op) st
    then exec (perform_all ops) (exec (perform op) st)
    else exec (perform op) st.
Proof.
  cbn [perform_all]. unfold exec, returns, mbind, M_bind.
  by destruct (perform op st) as [[[]|e] st1].
Qed.

(** What every event keeps, every run keeps. *)
Lemma perform_all_invariant (P : State -> Prop) :
  (forall op st, P st -> P (exec (perform op) st)) ->
  forall ops st, P st -> P (exec (perform_all ops) st).
Proof.
  intros Hstep. induction ops as [|op ops IH]; intros st Hst; [exact Hst |].
  rewrite perform_all_cons. destruct (returns (perform op) st); auto.
Qed.

(** Over a run, the log of writes grows by writes to files that were
    selected, and the disk changes at such files only. *)
Lemma perform_all_frame ops : forall st,
  exists l,
    written (exec (perform_all ops) st) = (written st ++ l)%list /\
    (forall p t, (p, t) ∈ l ->
       selected_file st = Some p \/ HandleSelection p ∈ ops) /\
    (forall q, disk (exec (perform_all ops) st) !! q <> disk st !! q ->
       selected_file st = Some q \/ HandleSelection q ∈ ops).
Proof.
  induction ops as [|op ops IH]; intros st.
  { exists []. cbn. split; [by rewrite app_nil_r |].
    split; [intros p t Hin; by apply elem_of_nil in Hin | done]. }
  rewrite perform_all_cons.
  pose proof (perform_frame op st) as Hop. cbn zeta in Hop.
  pose proof (perform_selected op st) as Hsel.
  set (st1 := exec (perform op) st) in *.
  assert (Hone : exists l1,
    written st1 = (written st ++ l1)%list /\
    (forall p t, (p, t) ∈ l1 -> selected_file st = Some p) /\
    (forall q, disk st1 !! q <> disk st !! q -> selected_file st = Some q)).
  { destruct Hop as [[Hd Hw]|[_ (f & Hf & _ & Hother & Hw)]].
    - exists []. rewrite app_nil_r, Hd.
      split; [done |]. split; [| done].
      intros p t Hin. by apply elem_of_nil in Hin.
    - assert (Hdisk : forall q,
        disk st1 !! q <> disk st !! q -> selected_file st = Some q).
      { intros q Hq. destruct (decide (q = f)) as [->|Hne]; [done |].
        by apply Hother in Hne. }
      destruct Hw as [Hw|[Hw _]].
      + exists []. rewrite app_nil_r. split; [done |]. split; [| done].
        intros p t Hin. by apply elem_of_nil in Hin.
      + exists [(f, text (text_area st))]. split; [done |]. split; [| done].
        intros p t Hin. apply list_elem_of_singleton in Hin. congruence. }
  destruct Hone as (l1 & Hw1 & Hl1 & Hd1).
  destruct (returns (perform op) st).
  - destruct (IH st1) as (l2 & Hw2 & Hl2 & Hd2).
    assert (Hlater : forall q,
      selected_file st1 = Some q \/ HandleSelection q ∈ ops ->
      selected_file st = Some q \/ HandleSelection q ∈ op :: ops).
    { intros q [Hq|Hq].
      - destruct (Hsel _ Hq) as [Hst| ->]; [by left |].
        right. apply list_elem_of_here.
      - right. by apply list_elem_of_further. }
    exists (l1 ++ l2)%list. split; [by rewrite Hw2, Hw1, app_assoc |]. split.
    + intros p t Hin. apply elem_of_app in Hin as [Hin|Hin].
      * left. by eapply Hl1.
      * apply Hlater. by eapply Hl2.
    + intros q Hq.
      destruct (decide (disk st1 !! q = disk st !! q)) as [Heq|Hne].
      * apply Hlater, Hd2. by rewrite Heq.
      * left. by apply Hd1.
  - exists l1. split; [done |]. split.
    + intros p t Hin. left. by eapply Hl1.
    + intros q Hq. left. by apply Hd1.
Qed.

(** The notifications and the writes of one event. *)
Lemma perform_effects op st :
  exists l w,
    notifications (exec (perform op) st) = (notifications st ++ l)%list /\
    written (exec (perform op) st) = (written st ++ w)%list /\
    ((l = [] /\ w = []) \/
     (exists p, op = HandleSelection p /\ l = [error_note p] /\ w = []) \/
     (exists f, op = SaveFile /\ selected_file st = Some f /\
        l = [saved_note f] /\ w = [(f, text (text_area st))])).
Proof.
  perform_cases op st.
  - exists [], []. rewrite !app_nil_r. auto.
  - exists [error_note path], []. rewrite app_nil_r.
    split; [done |]. split; [done |]. right. left. by exists path.
  - exists [], []. rewrite !app_nil_r. auto.
  - exists [], []. rewrite !app_nil_r. auto.
  - exists [saved_note f], [(f, text (text_area st))].
    split; [done |]. split; [done |]. right. right. by exists f.
  - exists [], []. rewrite !app_nil_r. auto.
  - exists [], []. rewrite !app_nil_r. auto.
  - exists [], []. rewrite !app_nil_r. auto.
Qed.

Lemma perform_all_returns_cons op ops st :
  returns (perform_all (op :: ops)) st =
    returns (perform op) st
    && returns (perform_all ops) (exec (perform op) st).
Proof.
  cbn [perform_all]. unfold exec, returns, mbind, M_bind.
  by destruct (perform op st) as [[[]|e] st1].
Qed.

(** ** The properties of the specification *)

(** C1, amended.  For every file whose content reads and decodes as text,
    handling its selection returns, with the file selected, its text as the
    loaded content, the editor buffer visible, and in the buffer the text
    of the document made of the file's text: its lines, split at every
    line boundary and joined with the newline of the text.  The buffer
    holds the file's text itself when the only line boundaries in that
    text are line feeds. *)
Theorem selected_file_is_loaded st path content :
  fs_read_text (disk st) path = Return content ->
  let st' := exec (on_directory_tree_file_selected path) st in
  returns (on_directory_tree_file_selected path) st = true /\
  selected_file st' = Some path /\
  file_content st' = Some content /\
  display (text_area st') = true /\
  text (text_area st') = document_text content /\
  (only_newline_breaks content = true -> text (text_area st') = content).
Proof.
  intros Hread. unfold exec, returns.
  rewrite (selected_loaded _ _ _ Hread). cbn.
  repeat split. by apply document_text_plain.
Qed.

(** C2.  For every file whose read fails, with whatever exception, handling
    its selection does not raise: it ends with no file selected, the buffer
    hidden and without a language, the subtitle ["ERROR"], and one more
    notification than before, an error titled ["File Error"] whose message
    starts with the name of the file. *)
Theorem unreadable_file_is_reported st path e :
  fs_read_text (disk st) path = Raise e ->
  exists st',
    on_directory_tree_file_selected path st = (Return tt, st') /\
    selected_file st' = None /\
    display (text_area st') = false /\
    language (text_area st') = None /\
    sub_title st' = "ERROR" /\
    notifications st' =
      (notifications st ++
       [ {| message := name path +:+ " could not be loaded";
            title := "File Error";
            severity := "error" |} ])%list.
Proof.
  intros Hread. eexists. split; [exact (selected_failed _ _ _ Hread) |].
  by cbn.
Qed.

(** C4, amended.  A failed load clears the selected file and leaves the
    loaded content as it was (it is not cleared); a successful load sets the
    two together; a save whose write goes through returns with the loaded
    content equal to the buffer and the selected file unchanged. *)
Theorem load_and_save_lifecycle st :
  (forall path e,
     fs_read_text (disk st) path = Raise e ->
     let st' := exec (on_directory_tree_file_selected path) st in
     selected_file st' = None /\ file_content st' = file_content st) /\
  (forall path content,
     fs_read_text (disk st) path = Return content ->
     let st' := exec (on_directory_tree_file_selected path) st in
     selected_file st' = Some path /\ file_content st' = Some content) /\
  (forall f,
     selected_file st = Some f ->
     succeeds (fs_write_text device (disk st) f (text (text_area st))).1
       = true ->
     let st' := exec action_save st in
     returns action_save st = true /\
     file_content st' = Some (text (text_area st)) /\
     selected_file st' = selected_file st).
Proof.
  split; [| split].
  - intros path e Hread. unfold exec.
    by rewrite (selected_failed _ _ _ Hread).
  - intros path content Hread. unfold exec.
    by rewrite (selected_loaded _ _ _ Hread).
  - intros f Hsel Hwrite. unfold exec, returns.
    destruct (decide (file_content st = Some (text (text_area st))))
      as [Hsame|Hmod]; [by rewrite (save_unmodified _ Hsame) |].
    destruct (fs_write_text device (disk st) f (text (text_area st)))
      as [[[]|e] d] eqn:Hd; [| discriminate Hwrite].
    rewrite (save_modified _ _ _ Hsel Hmod Hd). cbn. by rewrite Hsel.
Qed.

(** C5, amended.  For every state with a file [f] selected and a buffer
    that differs from the loaded content, if the write to [f] goes through
    then saving returns, the disk holds the full buffer text at [f] and is
    unchanged elsewhere, that one write is logged, the loaded content is
    the buffer text, the selected file is unchanged, and one notification
    is added, titled ["File Saved"], whose message is the path of [f]. *)
Theorem modified_buffer_is_saved st f :
  selected_file st = Some f ->
  file_content st <> Some (text (text_area st)) ->
  succeeds (fs_write_text device (disk st) f (text (text_area st))).1
    = true ->
  exists st',
    action_save st = (Return tt, st') /\
    fs_write_text device (disk st) f (text (text_area st))
      = (Return tt, disk st') /\
    disk_text (disk st') f = Some (text (text_area st)) /\
    (forall q, q <> f -> disk st' !! q = disk st !! q) /\
    written st' = (written st ++ [(f, text (text_area st))])%list /\
    file_content st' = Some (text (text_area st)) /\
    selected_file st' = Some f /\
    notifications st' =
      (notifications st ++
       [ {| message := str f; title := "File Saved";
            severity := "information" |} ])%list.
Proof.
  intros Hsel Hmod Hwrite.
  destruct (fs_write_text device (disk st) f (text (text_area st)))
    as [[[]|e] d] eqn:Hd; [| discriminate Hwrite].
  eexists. split; [exact (save_modified _ _ _ Hsel Hmod Hd) |]. cbn.
  destruct (fs_write_text_spec _ _ _ _ _ _ Hd) as [Hother Htext].
  repeat split; auto.
Qed.


(** C7.  On a successful load of [path] with text [content], the language
    of the buffer is the guessed identifier when the supported set holds
    it and none otherwise; so it is none or a member of the supported
    set. *)
Theorem language_is_supported_or_none st path content :
  fs_read_text (disk st) path = Return content ->
  let lexer := guess_lexer (str path) (Some content) in
  let lang :=
    language (text_area (exec (on_directory_tree_file_selected path) st)) in
  (lexer ∈ BUILTIN_LANGUAGES -> lang = Some lexer) /\
  (lexer ∉ BUILTIN_LANGUAGES -> lang = None) /\
  (forall l, lang = Some l -> l ∈ BUILTIN_LANGUAGES).
Proof.
  intros Hread. unfold exec. rewrite (selected_loaded _ _ _ Hread). cbn.
  unfold detected_language.
  destruct (decide _) as [Hin|Hout]; repeat split; try done.
  by intros l [= <-].
Qed.

(** C8.  For every state with no file selected, saving returns and leaves
    the whole state as it was: the disk, the log of writes, the
    notifications and every attribute. *)
Theorem save_without_selection_does_nothing st :
  selected_file st = None ->
  action_save st = (Return tt, st) /\
  disk (exec action_save st) = disk st /\
  written (exec action_save st) = written st /\
  notifications (exec action_save st) = notifications st.
Proof.
  intros Hsel. unfold exec. by rewrite (save_nothing_selected _ Hsel).
Qed.

(** C9.  Over the events of the application, only a save changes the disk,
    and only at the file that is selected; handling a selection, editing
    and toggling the tree leave the disk and the log of writes as they
    were, and a write that went through is a write of the buffer text to
    the selected file.  Over a run of events, every write that went through
    is to a file that was selected at the start or by an event of the run,
    and the disk changes at such files only. *)
Theorem only_save_writes_the_selected_file :
  (forall op st,
     let st' := exec (perform op) st in
     (op <> SaveFile -> disk st' = disk st /\ written st' = written st) /\
     (forall q, disk st' !! q <> disk st !! q ->
        op = SaveFile /\ selected_file st = Some q) /\
     (written st' = written st \/
      exists f,
        op = SaveFile /\ selected_file st = Some f /\
        written st' = (written st ++ [(f, text (text_area st))])%list /\
        disk_text (disk st') f = Some (text (text_area st)))) /\
  (forall ops st,
     let st' := exec (perform_all ops) st in
     exists l,
       written st' = (written st ++ l)%list /\
       (forall p t, (p, t) ∈ l ->
          selected_file st = Some p \/ HandleSelection p ∈ ops) /\
       (forall q, disk st' !! q <> disk st !! q ->
          selected_file st = Some q \/ HandleSelection q ∈ ops)).
Proof.
  split; [| intros ops st; apply perform_all_frame].
  intros op st. cbn zeta.
  destruct (perform_frame op st)
    as [[Hd Hw]|[-> (f & Hf & _ & Hother & Hw)]].
  - split; [done |]. split; [| by left].
    intros q Hq. by rewrite Hd in Hq.
  - split; [done |]. split.
    + intros q Hq. destruct (decide (q = f)) as [->|Hne]; [done |].
      by apply Hother in Hne.
    + destruct Hw as [Hw|[Hw Htext]]; [by left |]. right. by exists f.
Qed.

(** C10.  On every failed load the text of the buffer is left as it was;
    of the text area, only the visibility and the language are reset. *)
Theorem failed_load_keeps_buffer_text st path e :
  fs_read_text (disk st) path = Raise e ->
  let st' := exec (on_directory_tree_file_selected path) st in
  text (text_area st') = text (text_area st) /\
  display (text_area st') = false /\
  language (text_area st') = None.
Proof.
  intros Hread. unfold exec. by rewrite (selected_failed _ _ _ Hread).
Qed.

(** ** Further properties of the handlers *)

(** X1.  The loaded content is the text last read from or written to the
    selected file: the baseline holds when the application starts, every
    event that returns keeps it, and so does every run that returns.  (A
    save whose write fails may leave the file with less than the loaded
    content.) *)
Theorem baseline_is_kept :
  (forall path d, baseline_on_disk (init path d)) /\
  (forall op st,
     baseline_on_disk st ->
     returns (perform op) st = true ->
     baseline_on_disk (exec (perform op) st)) /\
  (forall ops st,
     baseline_on_disk st ->
     returns (perform_all ops) st = true ->
     baseline_on_disk (exec (perform_all ops) st)).
Proof.
  assert (Hstep : forall op st,
    baseline_on_disk st ->
    returns (perform op) st = true ->
    baseline_on_disk (exec (perform op) st)).
  { intros op st Hst. unfold baseline_on_disk in *.
    perform_cases op st; try done; intros _;
      try exact Hst; try (rewrite Hsel; exact Hst).
    - intros g [= <-]. exists c. split; [done |].
      by apply fs_read_text_disk_text.
    - intros g [= <-]. exists (text (text_area st)). split; [done |].
      by apply (fs_write_text_spec _ _ _ _ _ _ Hwrite). }
  split; [by intros path d f | split; [exact Hstep |]].
  induction ops as [|op ops IH]; intros st Hst Hret; [exact Hst |].
  rewrite perform_all_returns_cons in Hret.
  apply andb_true_iff in Hret as [Hop Hops].
  rewrite perform_all_cons, Hop. auto.
Qed.

(** X2.  A write that fails is not handled: for every state with a file
    selected and a modified buffer, the exception of the write leaves
    [action_save]; the loaded content, the buffer, the selection, the
    notifications and the log of writes are as they were, and the disk is
    the one the failed write left, changed at most at the selected
    file. *)
Theorem failed_write_propagates st f e :
  selected_file st = Some f ->
  file_content st <> Some (text (text_area st)) ->
  (fs_write_text device (disk st) f (text (text_area st))).1 = Raise e ->
  let st' := exec action_save st in
  (action_save st).1 = Raise e /\
  disk st' = (fs_write_text device (disk st) f (text (text_area st))).2 /\
  (forall q, q <> f -> disk st' !! q = disk st !! q) /\
  file_content st' = file_content st /\
  text_area st' = text_area st /\
  selected_file st' = selected_file st /\
  notifications st' = notifications st /\
  written st' = written st.
Proof.
  intros Hsel Hmod Hraise. cbn zeta. unfold exec.
  destruct (fs_write_text device (disk st) f (text (text_area st)))
    as [o d] eqn:Hwrite.
  cbn in Hraise. subst o.
  rewrite (save_write_failed st f e d Hsel Hmod Hwrite). cbn.
  destruct (fs_write_text_spec _ _ _ _ _ _ Hwrite) as [Hother _].
  by rewrite Hsel.
Qed.

(** X3.  Toggling the tree flips the flag and sets the class of the tree
    to the new value of the flag; it returns, and the selected file, the
    loaded content, the text area, the disk and the notifications are as
    they were. *)
Theorem toggle_only_flips_the_tree st :
  let st' := exec action_toggle_files st in
  returns action_toggle_files st = true /\
  show_tree st' = negb (show_tree st) /\
  ("-show-tree" ∈ classes st' <-> show_tree st' = true) /\
  selected_file st' = selected_file st /\
  file_content st' = file_content st /\
  text_area st' = text_area st /\
  disk st' = disk st /\
  notifications st' = notifications st.
Proof.
  cbn zeta. unfold action_toggle_files, watch_show_tree, set_class. run_M.
  destruct (show_tree st); cbn;
    (split; [done |]); (split; [done |]); (split; [| done]).
  - rewrite elem_of_difference, elem_of_singleton. split; [| done].
    by intros [_ Hne].
  - rewrite elem_of_union, elem_of_singleton. split; [done |]. by right.
Qed.

(** ** Runs of events *)

(** X4.  The header and the buffer follow the selection: this holds when
    the application starts, and every event and every run of events keep
    it.  So the buffer is visible exactly while a file is selected, and the
    subtitle is then the path of that file. *)
Theorem view_follows_selection_is_kept :
  (forall path d, view_follows_selection (init path d)) /\
  (forall op st,
     view_follows_selection st ->
     view_follows_selection (exec (perform op) st)) /\
  (forall ops st,
     view_follows_selection st ->
     view_follows_selection (exec (perform_all ops) st)).
Proof.
  assert (Hstep : forall op st,
    view_follows_selection st ->
    view_follows_selection (exec (perform op) st)).
  { intros op st. unfold view_follows_selection.
    perform_cases op st; try rewrite ?Hsel; try done.
    intros _. split; [done |]. by left. }
  split; [| split; [exact Hstep | by apply perform_all_invariant]].
  intros path d. unfold view_follows_selection. cbn. split; [done |]. by right.
Qed.

(** X5.  The language of the text area is always none or a member of
    [BUILTIN_LANGUAGES]: this holds when the application starts, and every
    event and every run keep it, so the text area is never given a
    language it does not know. *)
Theorem language_stays_supported :
  (forall path d, language_supported (init path d)) /\
  (forall op st,
     language_supported st -> language_supported (exec (perform op) st)) /\
  (forall ops st,
     language_supported st ->
     language_supported (exec (perform_all ops) st)).
Proof.
  assert (Hstep : forall op st,
    language_supported st -> language_supported (exec (perform op) st)).
  { intros op st. unfold language_supported.
    perform_cases op st; try done.
    intros _ l. unfold detected_language.
    destruct (decide _) as [Hin|Hout]; [| done]. by intros [= <-]. }
  split; [| split; [exact Hstep | by apply perform_all_invariant]].
  by intros path d l.
Qed.

(** X6.  A selection that loads discards what the buffer held: editing
    before it makes no difference to the state it ends in, the buffer holds
    the text of the document made of the file's text, and nothing was
    written. *)
Theorem selection_discards_edits st path content t :
  fs_read_text (disk st) path = Return content ->
  let st' := exec (edit t;; on_directory_tree_file_selected path) st in
  st' = exec (on_directory_tree_file_selected path) st /\
  text (text_area st') = document_text content /\
  disk st' = disk st /\
  written st' = written st.
Proof.
  intros Hread. cbn zeta. unfold exec, mbind, M_bind, edit. run_M.
  rewrite (selected_loaded _ path content) by exact Hread.
  by rewrite (selected_loaded st path content Hread).
Qed.

(** X8.  Over a run the notifications only grow, by at most one per event,
    and each one added is the error note of a selection or the saved note
    of a file; the saved notes added are, in order, those of the files
    written: every write is announced and nothing else is. *)
Theorem notifications_follow_the_writes ops : forall st,
  let st' := exec (perform_all ops) st in
  exists l w,
    notifications st' = (notifications st ++ l)%list /\
    written st' = (written st ++ w)%list /\
    length l <= length ops /\
    Forall (fun n => exists f, n = error_note f \/ n = saved_note f) l /\
    filter (fun n => title n = "File Saved") l = saved_note <$> w.*1.
Proof.
  induction ops as [|op ops IH]; intros st; cbn zeta.
  { exists [], []. cbn. by rewrite !app_nil_r. }
  rewrite perform_all_cons.
  destruct (perform_effects op st) as (l1 & w1 & Hn1 & Hw1 & Hcases).
  assert (Hone : length l1 <= 1 /\
    Forall (fun n => exists f, n = error_note f \/ n = saved_note f) l1 /\
    filter (fun n => title n = "File Saved") l1 = saved_note <$> w1.*1).
  { destruct Hcases as [[-> ->]|[(p & _ & -> & ->)|(f & _ & _ & -> & ->)]].
    - split; [cbn; lia |]. split; [by apply Forall_nil | done].
    - split; [cbn; lia |]. split; [| done].
      apply Forall_singleton. exists p. by left.
    - split; [cbn; lia |]. split; [| done].
      apply Forall_singleton. exists f. by right. }
  destruct Hone as (Hlen1 & Hall1 & Hfilter1).
  destruct (returns (perform op) st).
  - destruct (IH (exec (perform op) st)) as (l2 & w2 & Hn2 & Hw2 & Hlen2
                                               & Hall2 & Hfilter2).
    cbn zeta in Hn2, Hw2.
    exists (l1 ++ l2)%list, (w1 ++ w2)%list.
    rewrite Hn2, Hn1, Hw2, Hw1, <- !app_assoc.
    split; [done |]. split; [done |]. split; [| split].
    + rewrite length_app. cbn. lia.
    + by apply Forall_app.
    + by rewrite filter_app, !fmap_app, Hfilter1, Hfilter2.
  - exists l1, w1. split; [done |]. split; [done |]. split; [cbn; lia |].
    by split.
Qed.

(** X9.  Only a write that fails makes a handler raise: when an event
    raises, the event is a save of a modified buffer and the exception is
    the one the write to the selected file raised (never the
    [AttributeError] or [TypeError] of a missing attribute); the disk is
    unchanged away from that file, and every attribute, the notifications
    and the log of writes are as they were.  So a run without a save
    returns. *)
Theorem only_a_failed_write_raises :
  (forall op st e,
     (perform op st).1 = Raise e ->
     let st' := exec (perform op) st in
     op = SaveFile /\
     (exists f,
        selected_file st = Some f /\
        file_content st <> Some (text (text_area st)) /\
        (fs_write_text device (disk st) f (text (text_area st))).1
          = Raise e /\
        forall q, q <> f -> disk st' !! q = disk st !! q) /\
     e <> AttributeError /\ e <> TypeError /\
     text_area st' = text_area st /\
     selected_file st' = selected_file st /\
     file_content st' = file_content st /\
     sub_title st' = sub_title st /\
     notifications st' = notifications st /\
     written st' = written st) /\
  (forall ops st, SaveFile ∉ ops -> returns (perform_all ops) st = true).
Proof.
  assert (Hstep : forall op st e,
    (perform op st).1 = Raise e -> op = SaveFile).
  { intros op st e0. perform_cases op st; try discriminate. done. }
  split.
  - intros op st e0 Hraise. cbn zeta.
    pose proof (Hstep op st e0 Hraise) as ->. cbn [perform] in *.
    unfold exec.
    destruct (selected_file st) as [f|] eqn:Hsel;
      [| by rewrite (save_nothing_selected st Hsel) in Hraise].
    destruct (decide (file_content st = Some (text (text_area st))))
      as [Hsame|Hmod];
      [by rewrite (save_unmodified st Hsame) in Hraise |].
    destruct (fs_write_text device (disk st) f (text (text_area st)))
      as [[[]|e] d] eqn:Hwrite.
    { by rewrite (save_modified st f d Hsel Hmod Hwrite) in Hraise. }
    rewrite (save_write_failed st f e d Hsel Hmod Hwrite) in Hraise |- *.
    cbn in Hraise |- *. injection Hraise as ->.
    destruct (fs_write_text_spec _ _ _ _ _ _ Hwrite) as [Hother _].
    split; [done |]. split; [exists f; by rewrite Hwrite |].
    destruct (fs_write_text_raises _ _ _ _ _ _ Hwrite)
      as [He|[He|[He|He]]]; subst e0; by repeat split.
  - induction ops as [|op ops IH]; intros st Hno; [done |].
    apply not_elem_of_cons in Hno as [Hop Hops].
    rewrite perform_all_returns_cons. apply andb_true_iff. split; [| auto].
    unfold returns. destruct (perform op st).1 as [[]|e] eqn:Hrun; [done |].
    by destruct (Hstep op st e Hrun).
Qed.

(** X10.  With no file selected, a run of edits, saves and toggles returns
    and writes nothing: the disk, the log of writes and the notifications
    are as they were, and still no file is selected.  So after the start,
    or after a load that failed, nothing can be saved before a file is
    selected. *)
Theorem nothing_is_written_without_a_selection ops : forall st,
  selected_file st = None ->
  (forall p, HandleSelection p ∉ ops) ->
  let st' := exec (perform_all ops) st in
  returns (perform_all ops) st = true /\
  selected_file st' = None /\
  disk st' = disk st /\
  written st' = written st /\
  notifications st' = notifications st.
Proof.
  induction ops as [|op ops IH]; intros st Hsel Hno; cbn zeta; [done |].
  assert (Hops : forall p, HandleSelection p ∉ ops).
  { intros p Hin. apply (Hno p). by apply list_elem_of_further. }
  assert (Hop : perform op st = (Return tt, exec (perform op) st) /\
                selected_file (exec (perform op) st) = None /\
                disk (exec (perform op) st) = disk st /\
                written (exec (perform op) st) = written st /\
                notifications (exec (perform op) st) = notifications st).
  { destruct op as [path|t| |]; cbn [perform]; unfold exec.
    - destruct (Hno path). apply list_elem_of_here.
    - by cbn.
    - by rewrite (save_nothing_selected st Hsel).
    - by cbn. }
  destruct Hop as (Hrun & Hsel1 & Hd1 & Hw1 & Hn1).
  destruct (IH _ Hsel1 Hops) as (Hret & Hsel2 & Hd2 & Hw2 & Hn2).
  assert (Hret1 : returns (perform op) st = true).
  { unfold returns. by rewrite Hrun. }
  rewrite perform_all_cons, Hret1.
  rewrite Hd2, Hw2, Hn2, Hd1, Hw1, Hn1.
  split; [| done].
  unfold returns in Hret |- *. cbn [perform_all]. unfold mbind, M_bind.
  by rewrite Hrun.
Qed.

(** X11.  Toggling the tree twice restores the state, when the class of
    the tree agreed with the flag; in any case it restores the flag, and the
    class agrees with the flag afterwards. *)
Theorem toggle_twice_restores st :
  let st' := exec (action_toggle_files;; action_toggle_files) st in
  show_tree st' = show_tree st /\
  ("-show-tree" ∈ classes st' <-> show_tree st' = true) /\
  (("-show-tree" ∈ classes st <-> show_tree st = true) -> st' = st).
Proof.
  cbn zeta. unfold action_toggle_files, watch_show_tree, set_class. run_M.
  destruct st as [fp sub ta sel fc tree cs d ns ws]. cbn.
  destruct tree; cbn.
  - split; [done |]. split.
    + rewrite elem_of_union, elem_of_singleton. split; [done |]. by right.
    + intros [_ Hin]. f_equal. apply set_eq. intros x.
      rewrite elem_of_union, elem_of_difference, elem_of_singleton.
      split; [intros [[Hx _]| ->]; [done | by apply Hin] |].
      intros Hx. destruct (decide (x = "-show-tree")); [by right | by left].
  - split; [done |]. split.
    + rewrite elem_of_difference, elem_of_singleton. split; [| done].
      by intros [_ Hne].
    + intros [Hin _]. f_equal. apply set_eq. intros x.
      rewrite elem_of_difference, elem_of_union, elem_of_singleton.
      split; [intros [[Hx| ->] Hne]; done |].
      intros Hx. split; [by left |]. intros ->. by apply Hin in Hx.
Qed.

(** X12.  What each event leaves alone.  No event changes the path the
    application was started on; only a toggle changes the flag and the
    classes of the tree; only a selection changes the selected file, the
    subtitle, and the visibility and language of the buffer; only a
    selection or an edit changes the text area at all, so a save never
    touches the buffer; and only a selection or a save changes the loaded
    content. *)
Theorem events_leave_the_rest_alone op st :
  let st' := exec (perform op) st in
  file_path st' = file_path st /\
  (op <> ToggleTree ->
   show_tree st' = show_tree st /\ classes st' = classes st) /\
  ((forall p, op <> HandleSelection p) ->
   selected_file st' = selected_file st /\
   sub_title st' = sub_title st /\
   display (text_area st') = display (text_area st) /\
   language (text_area st') = language (text_area st)) /\
  ((forall p, op <> HandleSelection p) -> (forall t, op <> EditBuffer t) ->
   text_area st' = text_area st) /\
  ((forall p, op <> HandleSelection p) -> op <> SaveFile ->
   file_content st' = file_content st).
Proof.
  cbn zeta. perform_cases op st; try rewrite ?Hsel;
    (split; [done |]);
    (split; [intros Hne; first [done | by destruct Hne] |]);
    (split; [intros Hne; first [done | by destruct (Hne path)] |]);
    (split; intros Hne Hne';
       first [done | by destruct (Hne path) | by destruct (Hne' t)
             | by destruct Hne']).
Qed.

(** X13.  When the buffer holds the loaded content, saving writes nothing
    and notifies nothing.  Hence selecting a readable file whose text is
    the text of its own document and saving at once leaves the disk, and
    so the text of the file, as it was and posts no notification; and two
    saves in a row log at most one write, the second changing nothing
    after a first that returned. *)
Theorem unmodified_buffer_is_not_saved st :
  (file_content st = Some (text (text_area st)) ->
   action_save st = (Return tt, st)) /\
  (forall path content,
     fs_read_text (disk st) path = Return content ->
     document_text content = content ->
     let st1 := exec (on_directory_tree_file_selected path) st in
     let st2 := exec (on_directory_tree_file_selected path;; action_save) st in
     action_save st1 = (Return tt, st1) /\
     st2 = st1 /\
     disk st2 = disk st /\
     disk_text (disk st2) path = Some content /\
     written st2 = written st /\
     notifications st2 = notifications st) /\
  (let st1 := exec action_save st in
   let st2 := exec action_save st1 in
   length (written st2) <= S (length (written st)) /\
   (returns action_save st = true -> action_save st1 = (Return tt, st1))).
Proof.
  split; [apply save_unmodified |]. split.
  - intros path content Hread Hdoc.
    assert (Hsave : action_save (exec (on_directory_tree_file_selected path) st)
                    = (Return tt, exec (on_directory_tree_file_selected path) st)).
    { apply save_unmodified. unfold exec.
      rewrite (selected_loaded _ _ _ Hread). cbn. by rewrite Hdoc. }
    assert (Hseq : exec (on_directory_tree_file_selected path;; action_save) st
                   = exec (on_directory_tree_file_selected path) st).
    { unfold exec at 1. unfold mbind, M_bind.
      unfold exec in Hsave |- *.
      rewrite (selected_loaded _ _ _ Hread) in Hsave |- *.
      cbn in Hsave |- *. by rewrite Hsave. }
    cbn zeta. rewrite Hseq. split; [done |]. split; [done |].
    unfold exec. rewrite (selected_loaded _ _ _ Hread). cbn.
    repeat split; try done.
    by apply fs_read_text_disk_text.
  - cbn zeta. unfold exec, returns.
    destruct (selected_file st) as [f|] eqn:Hsel;
      [| rewrite (save_nothing_selected _ Hsel); cbn;
         rewrite (save_nothing_selected _ Hsel); cbn; split; [lia | done]].
    destruct (decide (file_content st = Some (text (text_area st))))
      as [Hsame|Hmod];
      [rewrite (save_unmodified _ Hsame); cbn;
       rewrite (save_unmodified _ Hsame); cbn; split; [lia | done] |].
    destruct (fs_write_text device (disk st) f (text (text_area st)))
      as [[[]|e] d] eqn:Hwrite.
    + rewrite (save_modified _ _ _ Hsel Hmod Hwrite). cbn.
      rewrite save_unmodified by done. cbn.
      rewrite length_app. cbn. split; [lia | done].
    + rewrite (save_write_failed _ _ _ _ Hsel Hmod Hwrite). cbn.
      split; [| done].
      set (st1 := mkState _ _ _ _ _ _ _ d _ _).
      destruct (fs_write_text device d f (text (text_area st)))
        as [[[]|e'] d'] eqn:Hagain.
      * rewrite (save_modified st1 f d'); [| done | done | exact Hagain].
        cbn. rewrite length_app. cbn. lia.
      * rewrite (save_write_failed st1 f e' d'); [| done | done | exact Hagain].
        cbn. lia.
Qed.

End CodeEditor.

(** ** The properties on the small world *)

(** C1 as the specification words it fails on the notes: their text reads
    with a form feed between its two lines, and the buffer holds the two
    lines joined with a line feed. *)
Lemma form_feed_file_is_not_the_buffer :
  let st' :=
    exec (on_directory_tree_file_selected Sample.guess Sample.languages
            Sample.notes_txt) Sample.fresh in
  fs_read_text (disk Sample.fresh) Sample.notes_txt = Return Sample.notes /\
  file_content st' = Some Sample.notes /\
  text (text_area st') = Sample.notes_joined /\
  Sample.notes_joined <> Sample.notes /\
  ~ buffer_is_file_text Sample.guess Sample.languages Sample.fresh
      Sample.notes_txt.
Proof.
  cbn zeta.
  split; [vm_compute; reflexivity |].
  split; [vm_compute; reflexivity |].
  split; [vm_compute; reflexivity |].
  split; [vm_compute; discriminate |].
  intros Hclaim. specialize (Hclaim Sample.notes).
  vm_compute in Hclaim. specialize (Hclaim eq_refl). discriminate Hclaim.
Qed.

(** C1, amended, at the script of the small world. *)
Lemma selected_file_is_loaded_main_py :
  let st' :=
    exec (on_directory_tree_file_selected Sample.guess Sample.languages
            Sample.main_py) Sample.fresh in
  returns (on_directory_tree_file_selected Sample.guess Sample.languages
             Sample.main_py) Sample.fresh = true /\
  selected_file st' = Some Sample.main_py /\
  file_content st' = Some "print(1)" /\
  display (text_area st') = true /\
  text (text_area st') = "print(1)".
Proof.
  destruct (selected_file_is_loaded Sample.guess Sample.languages Sample.fresh
              Sample.main_py "print(1)")
    as (Hret & Hsel & Hcontent & Hshown & _ & Htext).
  { vm_compute. reflexivity. }
  split; [exact Hret |]. split; [exact Hsel |]. split; [exact Hcontent |].
  split; [exact Hshown |].
  apply Htext. vm_compute. reflexivity.
Defined.

(** C2 at the image, selected while the script is open. *)
Lemma unreadable_file_is_reported_logo_png :
  exists st',
    on_directory_tree_file_selected Sample.guess Sample.languages
      Sample.logo_png Sample.main_py_open = (Return tt, st') /\
    selected_file st' = None /\
    display (text_area st') = false /\
    language (text_area st') = None /\
    sub_title st' = "ERROR" /\
    notifications st' =
      [ {| message := "logo.png could not be loaded";
           title := "File Error";
           severity := "error" |} ].
Proof.
  apply (unreadable_file_is_reported Sample.guess Sample.languages
           Sample.main_py_open Sample.logo_png UnicodeDecodeError).
  vm_compute. reflexivity.
Defined.

(** C3 fails on the code, at the notes: they are selected and saved at
    once, with no edit.  The buffer holds their two lines joined with a
    line feed, which is not the loaded content, so the save writes the
    buffer over the file and posts its note. *)
Lemma unedited_form_feed_file_is_rewritten :
  let st1 :=
    exec (on_directory_tree_file_selected Sample.guess Sample.languages
            Sample.notes_txt) Sample.fresh in
  let st2 :=
    exec (on_directory_tree_file_selected Sample.guess Sample.languages
            Sample.notes_txt;; action_save Sample.device) Sample.fresh in
  disk_text (disk Sample.fresh) Sample.notes_txt = Some Sample.notes /\
  file_content st1 = Some Sample.notes /\
  text (text_area st1) = Sample.notes_joined /\
  disk_text (disk st2) Sample.notes_txt = Some Sample.notes_joined /\
  Sample.notes_joined <> Sample.notes /\
  written st2 = [(Sample.notes_txt, Sample.notes_joined)] /\
  notifications st2 = [saved_note Sample.notes_txt].
Proof.
  cbn zeta.
  do 6 (split; [vm_compute; first [reflexivity | discriminate] |]).
  vm_compute. reflexivity.
Qed.

(** C4 as the specification words it fails: with the script open (the
    state its selection leads to), the image is selected, its read fails,
    and the loaded content is still the text of the script. *)
Lemma failed_load_keeps_loaded_content :
  let open_main_py :=
    exec (on_directory_tree_file_selected Sample.guess Sample.languages
            Sample.main_py) Sample.fresh in
  fs_read_text (disk open_main_py) Sample.logo_png
    = Raise UnicodeDecodeError /\
  file_content
    (exec (on_directory_tree_file_selected Sample.guess Sample.languages
             Sample.logo_png) open_main_py) = Some "print(1)" /\
  ~ failed_load_clears_both Sample.guess Sample.languages
      open_main_py Sample.logo_png.
Proof.
  cbn zeta.
  split; [vm_compute; reflexivity |].
  split; [vm_compute; reflexivity |].
  intros Hclaim.
  destruct (Hclaim UnicodeDecodeError) as [_ Hcontent];
    [vm_compute; reflexivity |].
  vm_compute in Hcontent. discriminate Hcontent.
Qed.

(** C4, amended, on the small world. *)
Lemma load_and_save_lifecycle_main_py :
  file_content
    (exec (on_directory_tree_file_selected Sample.guess Sample.languages
             Sample.logo_png) Sample.main_py_open) = Some "print(1)" /\
  file_content
    (exec (on_directory_tree_file_selected Sample.guess Sample.languages
             Sample.main_py) Sample.fresh) = Some "print(1)" /\
  file_content (exec (action_save Sample.device) Sample.main_py_edited)
    = Some "print(2)".
Proof.
  pose proof (load_and_save_lifecycle Sample.guess Sample.languages
                Sample.device Sample.main_py_open) as (Hfail & _ & _).
  pose proof (load_and_save_lifecycle Sample.guess Sample.languages
                Sample.device Sample.fresh) as (_ & Hload & _).
  pose proof (load_and_save_lifecycle Sample.guess Sample.languages
                Sample.device Sample.main_py_edited) as (_ & _ & Hsave).
  split; [| split].
  - apply (Hfail Sample.logo_png UnicodeDecodeError). vm_compute. reflexivity.
  - apply (Hload Sample.main_py "print(1)"). vm_compute. reflexivity.
  - apply (Hsave Sample.main_py); vm_compute; reflexivity.
Defined.

(** C5 as the specification words it fails: with the read-only file open
    and edited (the state its selection and an edit lead to), saving raises
    instead of writing. *)
Lemma read_only_file_is_not_saved :
  let edited_hosts :=
    exec (on_directory_tree_file_selected Sample.guess Sample.languages
            Sample.hosts;; edit "127.0.0.1 db") Sample.fresh in
  selected_file edited_hosts = Some Sample.hosts /\
  file_content edited_hosts = Some "127.0.0.1 localhost" /\
  text (text_area edited_hosts) = "127.0.0.1 db" /\
  (action_save Sample.device edited_hosts).1 = Raise PermissionError /\
  notifications (exec (action_save Sample.device) edited_hosts) = [] /\
  ~ save_writes_buffer Sample.device edited_hosts Sample.hosts.
Proof.
  cbn zeta.
  repeat (split; [vm_compute; reflexivity |]).
  intros Hclaim.
  destruct Hclaim as (st' & Hsave & _);
    [vm_compute; reflexivity | vm_compute; discriminate |].
  apply (f_equal fst) in Hsave. vm_compute in Hsave. discriminate Hsave.
Qed.

(** C5, amended, on the edited script. *)
Lemma modified_buffer_is_saved_main_py :
  exists st',
    action_save Sample.device Sample.main_py_edited = (Return tt, st') /\
    disk_text (disk st') Sample.main_py = Some "print(2)" /\
    written st' = [(Sample.main_py, "print(2)")] /\
    file_content st' = Some "print(2)" /\
    selected_file st' = Some Sample.main_py /\
    notifications st' =
      [ {| message := "/src/main.py"; title := "File Saved";
           severity := "information" |} ].
Proof.
  destruct (modified_buffer_is_saved Sample.device Sample.main_py_edited
              Sample.main_py)
    as (st' & Hsave & _ & Htext & _ & Hlog & Hcontent & Hsel & Hnote).
  - vm_compute. reflexivity.
  - vm_compute. discriminate.
  - vm_compute. reflexivity.
  - exists st'. repeat split; assumption.
Defined.

(** C7 on the script and on the read-only file. *)
Lemma language_is_supported_or_none_main_py :
  language
    (text_area
       (exec (on_directory_tree_file_selected Sample.guess Sample.languages
                Sample.main_py) Sample.fresh)) = Some "python" /\
  language
    (text_area
       (exec (on_directory_tree_file_selected Sample.guess Sample.languages
                Sample.hosts) Sample.main_py_open)) = None.
Proof.
  split.
  - apply (language_is_supported_or_none Sample.guess Sample.languages
             Sample.fresh Sample.main_py "print(1)").
    + vm_compute. reflexivity.
    + vm_compute. apply list_elem_of_here.
  - apply (language_is_supported_or_none Sample.guess Sample.languages
             Sample.main_py_open Sample.hosts "127.0.0.1 localhost").
    + vm_compute. reflexivity.
    + vm_compute. intros Hin.
      repeat (apply elem_of_cons in Hin as [Hin|Hin]; [discriminate Hin |]).
      by apply elem_of_nil in Hin.
Defined.

(** C8 on the application as it starts. *)
Lemma save_without_selection_does_nothing_fresh :
  action_save Sample.device Sample.fresh = (Return tt, Sample.fresh) /\
  disk (exec (action_save Sample.device) Sample.fresh) = disk Sample.fresh /\
  written (exec (action_save Sample.device) Sample.fresh)
    = written Sample.fresh /\
  notifications (exec (action_save Sample.device) Sample.fresh)
    = notifications Sample.fresh.
Proof.
  apply (save_without_selection_does_nothing Sample.device Sample.fresh).
  vm_compute. reflexivity.
Defined.

(** C10 at the image, selected while the script is open: the buffer, now
    hidden, still holds the text of the script. *)
Lemma failed_load_keeps_buffer_text_logo_png :
  let st' :=
    exec (on_directory_tree_file_selected Sample.guess Sample.languages
            Sample.logo_png) Sample.main_py_open in
  text (text_area st') = "print(1)" /\
  display (text_area st') = false /\
  language (text_area st') = None.
Proof.
  apply (failed_load_keeps_buffer_text Sample.guess Sample.languages
           Sample.main_py_open Sample.logo_png UnicodeDecodeError).
  vm_compute. reflexivity.
Defined.

(** X2 on the read-only file, open and edited, whose open is refused; and
    on the script with an edit too long for the device, which fails after
    the file was opened and leaves the start of the buffer in it. *)
Lemma failed_write_propagates_hosts :
  ((action_save Sample.device Sample.hosts_edited).1 = Raise PermissionError /\
   file_content (exec (action_save Sample.device) Sample.hosts_edited)
     = Some "127.0.0.1 localhost" /\
   notifications (exec (action_save Sample.device) Sample.hosts_edited)
     = []) /\
  ((action_save Sample.device Sample.main_py_long).1 = Raise OSError /\
   file_content (exec (action_save Sample.device) Sample.main_py_long)
     = Some "print(1)" /\
   notifications (exec (action_save Sample.device) Sample.main_py_long)
     = []) /\
  disk_text (disk (exec (action_save Sample.device) Sample.main_py_long))
    Sample.main_py = Some "print('a line of more than thirt".
Proof.
  split; [| split].
  - destruct (failed_write_propagates Sample.device Sample.hosts_edited
                Sample.hosts PermissionError)
      as (Hraise & _ & _ & Hcontent & _ & _ & Hnotes & _).
    + vm_compute. reflexivity.
    + vm_compute. discriminate.
    + vm_compute. reflexivity.
    + split; [exact Hraise |]. split; [exact Hcontent | exact Hnotes].
  - destruct (failed_write_propagates Sample.device Sample.main_py_long
                Sample.main_py OSError)
      as (Hraise & _ & _ & Hcontent & _ & _ & Hnotes & _).
    + vm_compute. reflexivity.
    + vm_compute. discriminate.
    + vm_compute. reflexivity.
    + split; [exact Hraise |]. split; [exact Hcontent | exact Hnotes].
  - vm_compute. reflexivity.
Defined.

(** X6 on the script: an edit, then the script is selected again. *)
Lemma selection_discards_edits_main_py :
  let st' :=
    exec (edit "print(2)";;
          on_directory_tree_file_selected Sample.guess Sample.languages
            Sample.main_py) Sample.main_py_open in
  st' = exec (on_directory_tree_file_selected Sample.guess Sample.languages
                Sample.main_py) Sample.main_py_open /\
  text (text_area st') = document_text "print(1)" /\
  disk st' = disk Sample.main_py_open /\
  written st' = written Sample.main_py_open.
Proof.
  apply (selection_discards_edits Sample.guess Sample.languages
           Sample.main_py_open Sample.main_py "print(1)" "print(2)").
  vm_compute. reflexivity.
Defined.

(** X10 on the application as it starts: an edit, a save, a toggle and a
    save. *)
Lemma nothing_is_written_without_a_selection_fresh :
  let ops := [EditBuffer "x = 1"; SaveFile; ToggleTree; SaveFile] in
  let st' :=
    exec (perform_all Sample.guess Sample.languages Sample.device ops)
         Sample.fresh in
  returns (perform_all Sample.guess Sample.languages Sample.device ops)
          Sample.fresh = true /\
  selected_file st' = None /\
  disk st' = disk Sample.fresh /\
  written st' = written Sample.fresh /\
  notifications st' = notifications Sample.fresh.
Proof.
  apply (nothing_is_written_without_a_selection Sample.guess Sample.languages
           Sample.device
           [EditBuffer "x = 1"; SaveFile; ToggleTree; SaveFile] Sample.fresh).
  - vm_compute. reflexivity.
  - intros p Hin.
    repeat (apply elem_of_cons in Hin as [Hin|Hin]; [discriminate Hin |]).
    by apply elem_of_nil in Hin.
Defined.

(** X13 on the script: saving the untouched buffer changes nothing,
    selecting and saving leaves the script on the disk, and two saves of
    the edited buffer log one write. *)
Lemma unmodified_buffer_is_not_saved_main_py :
  action_save Sample.device Sample.main_py_open
    = (Return tt, Sample.main_py_open) /\
  disk_text
    (disk (exec (on_directory_tree_file_selected Sample.guess Sample.languages
                   Sample.main_py;; action_save Sample.device) Sample.fresh))
    Sample.main_py = Some "print(1)" /\
  length (written (exec (action_save Sample.device)
                     (exec (action_save Sample.device)
                        Sample.main_py_edited)))
    <= 1.
Proof.
  pose proof (unmodified_buffer_is_not_saved Sample.guess Sample.languages
                Sample.device Sample.main_py_open) as (Hsame & _ & _).
  pose proof (unmodified_buffer_is_not_saved Sample.guess Sample.languages
                Sample.device Sample.fresh) as (_ & Hround & _).
  pose proof (unmodified_buffer_is_not_saved Sample.guess Sample.languages
                Sample.device Sample.main_py_edited) as (_ & _ & [Htwice _]).
  split; [| split].
  - apply Hsame. vm_compute. reflexivity.
  - apply (Hround Sample.main_py "print(1)"); vm_compute; reflexivity.
  - exact Htwice.
Defined.
